(** * Sonoluminescence simulator: the stepping model and its facade

    A shallow embedding of [SonolumiPhysics] (SonolumiPhysics.h/.cpp) and of
    [Simulator] (simulator.h/.cpp), with the properties of the per-step state
    update, of reconfiguration and of the facade's cached read-outs.

    Numbers.  Every [double] of the source is a real number here and the
    operations of <cmath> are the exact ones ([sin], [exp], [PI] of the
    standard library of reals, [fmod] defined below).  Rounding, overflow,
    underflow, infinities and NaN are outside this model.  Where they
    decide a property the statement says so: the elapsed time, which the
    program accumulates with rounding, is modelled a second time as the
    binary64 number it is ([Clock]); bounds that underflow or overflow
    would break carry a bound on the magnitude of the radius; and with a
    zero frequency the source divides by zero, so the value the model
    gives to [1 / 0] says nothing about the program, and the statements on
    the phase formulas and on the states a run reaches ask for a positive
    frequency.

    Objects.  A C++ object is a record, a [void] member function maps the
    record before the call to the record after it, a [const] member function
    reads it.  The line [std::cout << ...] of [Simulator::set_parameters]
    writes to the console and touches no member; it is left out. *)

From Stdlib Require Import PrimFloat.
From Stdlib Require Import Reals Lra Lia ZArith NArith String List.
Import ListNotations.

Open Scope R_scope.

(** ** <cmath> *)

Module CMath.

(** Rounding towards zero, the quotient [fmod] removes. *)
Definition trunc (x : R) : Z :=
  if Rle_dec 0 x then Zfloor x else Zceil x.

(** [fmod x y] is [x - n * y], [n] being [x / y] with its fraction dropped:
    the result has the sign of [x] and is smaller than [y] in magnitude. *)
Definition fmod (x y : R) : R :=
  x - IZR (trunc (x / y)) * y.

Definition M_PI : R := PI.

End CMath.

(** ** class SonolumiPhysics *)

Module SonolumiPhysics.

Import CMath.

Record t : Type := Build {
  (* Parameters *)
  m_frequency_hz : R;
  m_pressure_atm : R;
  m_ambient_radius_mm : R;
  m_gas_type : string;
  m_liquid_type : string;
  (* State variables *)
  m_time : R;
  m_current_radius : R;
  m_max_temperature : R;
  m_light_intensity : R
}.

(** Assignments to one member. *)

Definition assign_time (v : R) (s : t) : t :=
  Build (m_frequency_hz s) (m_pressure_atm s) (m_ambient_radius_mm s)
        (m_gas_type s) (m_liquid_type s)
        v (m_current_radius s) (m_max_temperature s) (m_light_intensity s).

Definition assign_current_radius (v : R) (s : t) : t :=
  Build (m_frequency_hz s) (m_pressure_atm s) (m_ambient_radius_mm s)
        (m_gas_type s) (m_liquid_type s)
        (m_time s) v (m_max_temperature s) (m_light_intensity s).

Definition assign_max_temperature (v : R) (s : t) : t :=
  Build (m_frequency_hz s) (m_pressure_atm s) (m_ambient_radius_mm s)
        (m_gas_type s) (m_liquid_type s)
        (m_time s) (m_current_radius s) v (m_light_intensity s).

Definition assign_light_intensity (v : R) (s : t) : t :=
  Build (m_frequency_hz s) (m_pressure_atm s) (m_ambient_radius_mm s)
        (m_gas_type s) (m_liquid_type s)
        (m_time s) (m_current_radius s) (m_max_temperature s) v.

(** The constructor: every number is zero, both strings are empty. *)
Definition ctor : t :=
  Build 0 0 0 EmptyString EmptyString 0 0 0 0.

Definition set_frequency (freq_hz : R) (s : t) : t :=
  Build freq_hz (m_pressure_atm s) (m_ambient_radius_mm s)
        (m_gas_type s) (m_liquid_type s)
        (m_time s) (m_current_radius s) (m_max_temperature s)
        (m_light_intensity s).

Definition set_pressure (pressure_atm : R) (s : t) : t :=
  Build (m_frequency_hz s) pressure_atm (m_ambient_radius_mm s)
        (m_gas_type s) (m_liquid_type s)
        (m_time s) (m_current_radius s) (m_max_temperature s)
        (m_light_intensity s).

(** [m_ambient_radius_mm = radius_mm; m_current_radius = radius_mm;] *)
Definition set_ambient_radius (radius_mm : R) (s : t) : t :=
  Build (m_frequency_hz s) (m_pressure_atm s) radius_mm
        (m_gas_type s) (m_liquid_type s)
        (m_time s) radius_mm (m_max_temperature s) (m_light_intensity s).

Definition set_gas_type (type : string) (s : t) : t :=
  Build (m_frequency_hz s) (m_pressure_atm s) (m_ambient_radius_mm s)
        type (m_liquid_type s)
        (m_time s) (m_current_radius s) (m_max_temperature s)
        (m_light_intensity s).

Definition set_liquid_type (type : string) (s : t) : t :=
  Build (m_frequency_hz s) (m_pressure_atm s) (m_ambient_radius_mm s)
        (m_gas_type s) type
        (m_time s) (m_current_radius s) (m_max_temperature s)
        (m_light_intensity s).

(** [if (temp < 1000.0) return 0.0; return std::exp((temp - 1000.0) / 10000.0);] *)
Definition model_thermal_emission (temp : R) : R :=
  if Rlt_dec temp 1000 then 0 else exp ((temp - 1000) / 10000).

(** The two locals every call of [simulate_step] computes after it has
    advanced the time: [period] and [t_in_period]. *)
Definition period_of (s : t) : R := 1 / m_frequency_hz s.

Definition t_in_period_of (s : t) : R :=
  fmod (m_time s + 1 / 60) (period_of s).

(** [simulate_step], statement by statement. *)
Definition simulate_step (s : t) : t :=
  let s := assign_time (m_time s + 1 / 60) s in
  let period := 1 / m_frequency_hz s in
  let t_in_period := fmod (m_time s) period in
  if Rlt_dec t_in_period (period * 0.9) then
    (* Expansion phase *)
    let s := assign_current_radius
               (m_ambient_radius_mm s
                * (1 + 1 * sin (t_in_period / period * M_PI))) s in
    assign_max_temperature 0 s
  else
    (* Collapse phase (briefly) *)
    let s := assign_current_radius
               (m_ambient_radius_mm s
                * (1 - 0.5 * sin ((t_in_period - period * 0.9)
                                  / (period * 0.1) * M_PI))) s in
    if Rlt_dec (m_current_radius s) (m_ambient_radius_mm s * 0.5) then
      let compression_ratio :=
        m_ambient_radius_mm s * 0.5 / m_current_radius s in
      let s := assign_max_temperature (50000 * compression_ratio) s in
      assign_light_intensity (model_thermal_emission (m_max_temperature s)) s
    else
      let s := assign_max_temperature 0 s in
      assign_light_intensity 0 s.

Definition get_radius (s : t) : R := m_current_radius s.
Definition get_max_temperature (s : t) : R := m_max_temperature s.
Definition get_emitted_light (s : t) : R := m_light_intensity s.

(** The five setters in the order [Simulator::set_parameters] calls them:
    the model's side of a (re)configuration. *)
Definition configure (frequency_hz pressure_atm radius_mm : R)
    (gas_type liquid_type : string) (s : t) : t :=
  set_liquid_type liquid_type
    (set_gas_type gas_type
      (set_ambient_radius radius_mm
        (set_pressure pressure_atm
          (set_frequency frequency_hz s)))).

(** Which of the three paths of [simulate_step] a call from [s] takes. *)
Inductive path : Type := Expansion | SevereCollapse | MildCollapse.

Definition collapse_radius_of (s : t) : R :=
  m_ambient_radius_mm s
  * (1 - 0.5 * sin ((t_in_period_of s - period_of s * 0.9)
                    / (period_of s * 0.1) * M_PI)).

Definition path_of (s : t) : path :=
  if Rlt_dec (t_in_period_of s) (period_of s * 0.9) then Expansion
  else if Rlt_dec (collapse_radius_of s) (m_ambient_radius_mm s * 0.5)
       then SevereCollapse
       else MildCollapse.

(** [n] calls of [simulate_step] in a row. *)
Fixpoint steps (n : nat) (s : t) : t :=
  match n with
  | O => s
  | S k => simulate_step (steps k s)
  end.

(** The states a model gets into when every configuration it is given has
    a positive frequency and a positive ambient radius: it is constructed
    and configured, and then stepped or configured again, in any order. *)
Inductive reachable : t -> Prop :=
| reachable_configured f p a g l :
    0 < f -> 0 < a -> reachable (configure f p a g l ctor)
| reachable_step s :
    reachable s -> reachable (simulate_step s)
| reachable_reconfigured s f p a g l :
    reachable s -> 0 < f -> 0 < a -> reachable (configure f p a g l s).

End SonolumiPhysics.

(** ** class Simulator *)

Module Simulator.

Record t : Type := Build {
  physics : SonolumiPhysics.t;
  (* Current state variables *)
  current_bubble_radius : R;
  current_peak_temperature : R;
  current_light_intensity : R
}.

Definition set_parameters (frequency_hz pressure_atm radius_mm : R)
    (gas_type liquid_type : string) (s : t) : t :=
  (* Set parameters in the underlying physics engine *)
  let physics :=
    SonolumiPhysics.set_liquid_type liquid_type
      (SonolumiPhysics.set_gas_type gas_type
        (SonolumiPhysics.set_ambient_radius radius_mm
          (SonolumiPhysics.set_pressure pressure_atm
            (SonolumiPhysics.set_frequency frequency_hz (physics s))))) in
  (* Reset simulation state *)
  Build physics radius_mm 0 0.

(** The member [physics] is default-constructed, the three numbers are
    zeroed, and the body applies the default parameters. *)
Definition ctor : t :=
  set_parameters 20000 1.35 0.005 "Argon" "Water"
    (Build SonolumiPhysics.ctor 0 0 0).

Definition step (s : t) : t :=
  (* Run one step of the physics simulation *)
  let physics := SonolumiPhysics.simulate_step (physics s) in
  (* Update real-time state variables *)
  Build physics
        (SonolumiPhysics.get_radius physics)
        (SonolumiPhysics.get_max_temperature physics)
        (SonolumiPhysics.get_emitted_light physics).

Definition get_bubble_radius (s : t) : R := current_bubble_radius s.
Definition get_peak_temperature (s : t) : R := current_peak_temperature s.
Definition get_light_intensity (s : t) : R := current_light_intensity s.

(** What a caller can read between two calls. *)
Definition readout (s : t) : R * R * R :=
  (get_bubble_radius s, get_peak_temperature s, get_light_intensity s).

(** A call a host makes on a facade object. *)
Inductive call : Type :=
| SetParameters (frequency_hz pressure_atm radius_mm : R)
                (gas_type liquid_type : string)
| Step.

Definition exec (c : call) (s : t) : t :=
  match c with
  | SetParameters f p a g l => set_parameters f p a g l s
  | Step => step s
  end.

(** A run: the calls of [cs], first to last, on the object [s]. *)
Fixpoint run (cs : list call) (s : t) : t :=
  match cs with
  | [] => s
  | c :: cs' => run cs' (exec c s)
  end.

(** The read-outs of a run, one after each call. *)
Fixpoint trace (cs : list call) (s : t) : list (R * R * R) :=
  match cs with
  | [] => []
  | c :: cs' => readout (exec c s) :: trace cs' (exec c s)
  end.

(** [n] calls of [step] in a row. *)
Fixpoint steps (n : nat) (s : t) : t :=
  match n with
  | O => s
  | S k => step (steps k s)
  end.

(** Two calls that differ at most in the gas and liquid labels. *)
Inductive same_up_to_labels : call -> call -> Prop :=
| sul_set f p a g1 l1 g2 l2 :
    same_up_to_labels (SetParameters f p a g1 l1) (SetParameters f p a g2 l2)
| sul_step : same_up_to_labels Step Step.

(** Two facade objects that agree on every number they hold. *)
Definition same_numbers (s1 s2 : t) : Prop :=
  SonolumiPhysics.m_frequency_hz (physics s1)
    = SonolumiPhysics.m_frequency_hz (physics s2)
  /\ SonolumiPhysics.m_pressure_atm (physics s1)
     = SonolumiPhysics.m_pressure_atm (physics s2)
  /\ SonolumiPhysics.m_ambient_radius_mm (physics s1)
     = SonolumiPhysics.m_ambient_radius_mm (physics s2)
  /\ SonolumiPhysics.m_time (physics s1)
     = SonolumiPhysics.m_time (physics s2)
  /\ SonolumiPhysics.m_current_radius (physics s1)
     = SonolumiPhysics.m_current_radius (physics s2)
  /\ SonolumiPhysics.m_max_temperature (physics s1)
     = SonolumiPhysics.m_max_temperature (physics s2)
  /\ SonolumiPhysics.m_light_intensity (physics s1)
     = SonolumiPhysics.m_light_intensity (physics s2)
  /\ readout s1 = readout s2.

End Simulator.

Module SP := SonolumiPhysics.
Module Sim := Simulator.

(** ** The clock as the binary64 number it is *)

Module Clock.

(** [m_time(0.0)] *)
Definition ctor : float := 0%float.







End Clock.

(** A model given a negative rest radius and 55 Hz: the first call is
    1/12 of a period short of the period's end, the radius is 3/4 of the
    rest radius, which for a negative radius is below half of it, and the
    severe-collapse path runs. *)
Definition inverted_bubble : SP.t :=
  SP.simulate_step (SP.configure 55 1 (-1) "Argon" "Water" SP.ctor).

(** ** Runs of calls: what the further properties speak of *)

(** How many of the calls are [step]. *)
Fixpoint count_steps (cs : list Sim.call) : nat :=
  match cs with
  | [] => O
  | Sim.Step :: cs' => S (count_steps cs')
  | Sim.SetParameters _ _ _ _ _ :: cs' => count_steps cs'
  end.


(** A call that leaves the period finite. *)
Definition driven_call (c : Sim.call) : Prop :=
  match c with
  | Sim.SetParameters f _ _ _ _ => f <> 0
  | Sim.Step => True
  end.

(** Two calls that differ at most in the pressure and in the labels. *)
Inductive same_drive : Sim.call -> Sim.call -> Prop :=
| same_drive_set f a p1 g1 l1 p2 g2 l2 :
    same_drive (Sim.SetParameters f p1 a g1 l1)
               (Sim.SetParameters f p2 a g2 l2)
| same_drive_step : same_drive Sim.Step Sim.Step.

(** Two facades that agree on the frequency, on the ambient radius, on the
    four state variables of the model and on the cached read-outs. *)
Definition same_dynamics (s1 s2 : Sim.t) : Prop :=
  SP.m_frequency_hz (Sim.physics s1) = SP.m_frequency_hz (Sim.physics s2)
  /\ SP.m_ambient_radius_mm (Sim.physics s1)
     = SP.m_ambient_radius_mm (Sim.physics s2)
  /\ SP.m_time (Sim.physics s1) = SP.m_time (Sim.physics s2)
  /\ SP.m_current_radius (Sim.physics s1)
     = SP.m_current_radius (Sim.physics s2)
  /\ SP.m_max_temperature (Sim.physics s1)
     = SP.m_max_temperature (Sim.physics s2)
  /\ SP.m_light_intensity (Sim.physics s1)
     = SP.m_light_intensity (Sim.physics s2)
  /\ Sim.readout s1 = Sim.readout s2.

(** What the model would answer if it were read directly. *)
Definition live_readout (m : SP.t) : R * R * R :=
  (SP.get_radius m, SP.get_max_temperature m, SP.get_emitted_light m).

(** * Properties *)

(** ** [fmod] on the reals *)

Section FmodFacts.

Import CMath.

Lemma trunc_unique (x : R) (k : Z) :
  0 <= x -> IZR k <= x < IZR k + 1 -> trunc x = k.
Proof.
  intros Hx Hk. unfold trunc.
  destruct (Rle_dec 0 x) as [_ | Hneg]; [| contradiction].
  now apply Zfloor_eq.
Qed.

(** A non-negative time below one period is its own remainder. *)
Lemma fmod_below (x y : R) :
  0 <= x < y -> fmod x y = x.
Proof.
  intros [Hx Hxy]. unfold fmod.
  assert (Hy : 0 < y) by lra.
  assert (Hq : 0 <= x / y < 1).
  { split.
    - apply Rmult_le_pos; [lra |]. left. now apply Rinv_0_lt_compat.
    - apply Rmult_lt_reg_r with y; [lra |]. field_simplify; lra. }
  rewrite (trunc_unique (x / y) 0); [lra | lra | simpl; lra].
Qed.

(** With [k] whole periods in [x], the remainder is what is left. *)
Lemma fmod_periods (x y : R) (k : Z) :
  0 < y -> 0 <= x -> IZR k * y <= x < (IZR k + 1) * y ->
  fmod x y = x - IZR k * y.
Proof.
  intros Hy Hx [Hlo Hhi]. unfold fmod.
  assert (Hq : IZR k <= x / y < IZR k + 1).
  { split.
    - apply Rmult_le_reg_r with y; [lra |]. field_simplify; lra.
    - apply Rmult_lt_reg_r with y; [lra |]. field_simplify; lra. }
  assert (Hq0 : 0 <= x / y).
  { apply Rmult_le_pos; [lra |]. left. now apply Rinv_0_lt_compat. }
  now rewrite (trunc_unique (x / y) k).
Qed.

(** For a time that is not negative and a positive period, [fmod] is the
    remainder of the division: it lies in [[0, y)] and a whole number of
    periods separates it from [x]. *)
Lemma fmod_remainder (x y : R) :
  0 <= x -> 0 < y ->
  0 <= fmod x y < y /\ exists k : Z, (0 <= k)%Z /\ x = IZR k * y + fmod x y.
Proof.
  intros Hx Hy.
  assert (Hq0 : 0 <= x / y).
  { apply Rmult_le_pos; [lra |]. left. now apply Rinv_0_lt_compat. }
  destruct (Zfloor_bound (x / y)) as [Hlo Hhi].
  set (k := Zfloor (x / y)) in *.
  assert (Hxy : x / y * y = x) by (field; lra).
  assert (Hb : IZR k * y <= x < (IZR k + 1) * y).
  { rewrite <- Hxy. split.
    - apply Rmult_le_compat_r; lra.
    - apply Rmult_lt_compat_r; lra. }
  rewrite (fmod_periods x y k Hy Hx Hb).
  split; [lra |]. exists k. split; [| lra].
  apply Zfloor_lub. simpl. exact Hq0.
Qed.

End FmodFacts.

(** ** One call of [simulate_step], path by path *)

Section StepFacts.

Import CMath.

Ltac open_step :=
  unfold SP.simulate_step, SP.path_of, SP.collapse_radius_of,
         SP.t_in_period_of, SP.period_of in *;
  cbn [SP.assign_time SP.assign_current_radius SP.assign_max_temperature
       SP.assign_light_intensity
       SP.m_frequency_hz SP.m_pressure_atm SP.m_ambient_radius_mm
       SP.m_gas_type SP.m_liquid_type SP.m_time SP.m_current_radius
       SP.m_max_temperature SP.m_light_intensity] in *.

Lemma simulate_step_expansion (s : SP.t) :
  SP.t_in_period_of s < SP.period_of s * 0.9 ->
  SP.simulate_step s =
  SP.Build (SP.m_frequency_hz s) (SP.m_pressure_atm s)
           (SP.m_ambient_radius_mm s) (SP.m_gas_type s) (SP.m_liquid_type s)
           (SP.m_time s + 1 / 60)
           (SP.m_ambient_radius_mm s
            * (1 + 1 * sin (SP.t_in_period_of s / SP.period_of s * M_PI)))
           0
           (SP.m_light_intensity s).
Proof.
  intros Hphase. open_step.
  destruct (Rlt_dec _ _) as [_ | Hno]; [reflexivity | contradiction].
Qed.

Lemma simulate_step_severe (s : SP.t) :
  ~ SP.t_in_period_of s < SP.period_of s * 0.9 ->
  SP.collapse_radius_of s < SP.m_ambient_radius_mm s * 0.5 ->
  SP.simulate_step s =
  SP.Build (SP.m_frequency_hz s) (SP.m_pressure_atm s)
           (SP.m_ambient_radius_mm s) (SP.m_gas_type s) (SP.m_liquid_type s)
           (SP.m_time s + 1 / 60)
           (SP.collapse_radius_of s)
           (50000 * (SP.m_ambient_radius_mm s * 0.5
                     / SP.collapse_radius_of s))
           (SP.model_thermal_emission
              (50000 * (SP.m_ambient_radius_mm s * 0.5
                        / SP.collapse_radius_of s))).
Proof.
  intros Hphase Hdeep. open_step.
  destruct (Rlt_dec _ _) as [Hyes | _]; [contradiction |].
  destruct (Rlt_dec _ _) as [_ | Hno]; [reflexivity | contradiction].
Qed.

Lemma simulate_step_mild (s : SP.t) :
  ~ SP.t_in_period_of s < SP.period_of s * 0.9 ->
  ~ SP.collapse_radius_of s < SP.m_ambient_radius_mm s * 0.5 ->
  SP.simulate_step s =
  SP.Build (SP.m_frequency_hz s) (SP.m_pressure_atm s)
           (SP.m_ambient_radius_mm s) (SP.m_gas_type s) (SP.m_liquid_type s)
           (SP.m_time s + 1 / 60)
           (SP.collapse_radius_of s)
           0
           0.
Proof.
  intros Hphase Hshallow. open_step.
  destruct (Rlt_dec _ _) as [Hyes | _]; [contradiction |].
  destruct (Rlt_dec _ _) as [Hyes | _]; [contradiction | reflexivity].
Qed.

(** The emission model: dark below 1000, an exponential from there on. *)
Lemma emission_below (temp : R) :
  temp < 1000 -> SP.model_thermal_emission temp = 0.
Proof.
  intros H. unfold SP.model_thermal_emission.
  destruct (Rlt_dec temp 1000); [reflexivity | contradiction].
Qed.

Lemma emission_from (temp : R) :
  1000 <= temp ->
  SP.model_thermal_emission temp = exp ((temp - 1000) / 10000).
Proof.
  intros H. unfold SP.model_thermal_emission.
  destruct (Rlt_dec temp 1000); [lra | reflexivity].
Qed.

Lemma emission_positive (temp : R) :
  1000 <= temp -> 0 < SP.model_thermal_emission temp.
Proof.
  intros H. rewrite emission_from by assumption. apply exp_pos.
Qed.

Lemma emission_lights_iff (temp : R) :
  0 < SP.model_thermal_emission temp <-> 1000 <= temp.
Proof.
  split; [| apply emission_positive].
  intros Hpos. destruct (Rlt_dec temp 1000) as [Hlow | Hhigh]; [| lra].
  rewrite emission_below in Hpos by assumption. lra.
Qed.

(** [path_of] names the path whose guards hold. *)
Lemma path_of_guards (s : SP.t) :
  match SP.path_of s with
  | SP.Expansion => SP.t_in_period_of s < SP.period_of s * 0.9
  | SP.SevereCollapse =>
      ~ SP.t_in_period_of s < SP.period_of s * 0.9
      /\ SP.collapse_radius_of s < SP.m_ambient_radius_mm s * 0.5
  | SP.MildCollapse =>
      ~ SP.t_in_period_of s < SP.period_of s * 0.9
      /\ ~ SP.collapse_radius_of s < SP.m_ambient_radius_mm s * 0.5
  end.
Proof.
  unfold SP.path_of.
  destruct (Rlt_dec (SP.t_in_period_of s) (SP.period_of s * 0.9));
    [assumption |].
  destruct (Rlt_dec (SP.collapse_radius_of s)
                    (SP.m_ambient_radius_mm s * 0.5)); now split.
Qed.

(** The members no path of [simulate_step] writes. *)
Lemma simulate_step_parameters (s : SP.t) :
  SP.m_frequency_hz (SP.simulate_step s) = SP.m_frequency_hz s
  /\ SP.m_pressure_atm (SP.simulate_step s) = SP.m_pressure_atm s
  /\ SP.m_ambient_radius_mm (SP.simulate_step s) = SP.m_ambient_radius_mm s
  /\ SP.m_gas_type (SP.simulate_step s) = SP.m_gas_type s
  /\ SP.m_liquid_type (SP.simulate_step s) = SP.m_liquid_type s.
Proof.
  open_step.
  repeat (destruct (Rlt_dec _ _)); cbn; repeat split; reflexivity.
Qed.

Lemma simulate_step_time (s : SP.t) :
  SP.m_time (SP.simulate_step s) = SP.m_time s + 1 / 60.
Proof.
  open_step. repeat (destruct (Rlt_dec _ _)); reflexivity.
Qed.

(** [sin] never exceeds 1, so a bubble of positive rest radius never dips
    below half of it. *)
Lemma collapse_radius_floor (a x : R) :
  0 <= a -> a * 0.5 <= a * (1 - 0.5 * sin x).
Proof.
  intros Ha. destruct (SIN_bound x) as [_ Hle].
  apply Rmult_le_compat_l; lra.
Qed.

Lemma path_of_never_severe (s : SP.t) :
  0 <= SP.m_ambient_radius_mm s -> SP.path_of s <> SP.SevereCollapse.
Proof.
  intros Ha. unfold SP.path_of.
  destruct (Rlt_dec _ _); [discriminate |].
  destruct (Rlt_dec _ _) as [Hdeep | _]; [| discriminate].
  unfold SP.collapse_radius_of in Hdeep.
  pose proof (collapse_radius_floor (SP.m_ambient_radius_mm s)
    ((SP.t_in_period_of s - SP.period_of s * 0.9)
     / (SP.period_of s * 0.1) * M_PI) Ha).
  lra.
Qed.

(** With a rest radius that is not negative, a call zeroes the temperature
    and leaves a zero light at zero. *)
Lemma simulate_step_dark (s : SP.t) :
  0 <= SP.m_ambient_radius_mm s ->
  SP.m_light_intensity s = 0 ->
  SP.m_max_temperature (SP.simulate_step s) = 0
  /\ SP.m_light_intensity (SP.simulate_step s) = 0.
Proof.
  intros Ha Hl.
  destruct (Rlt_dec (SP.t_in_period_of s) (SP.period_of s * 0.9))
    as [Hexp | Hcol].
  - rewrite simulate_step_expansion by assumption. cbn. now split.
  - destruct (Rlt_dec (SP.collapse_radius_of s)
                      (SP.m_ambient_radius_mm s * 0.5)) as [Hdeep | Hsh].
    + exfalso.
      pose proof (collapse_radius_floor (SP.m_ambient_radius_mm s)
        ((SP.t_in_period_of s - SP.period_of s * 0.9)
         / (SP.period_of s * 0.1) * M_PI) Ha).
      unfold SP.collapse_radius_of in Hdeep. lra.
    + rewrite simulate_step_mild by assumption. cbn. now split.
Qed.

End StepFacts.

(** ** Configuration and the states reached under valid configurations *)

Section ReachableFacts.

Lemma configure_fields (f p a : R) (g l : string) (s : SP.t) :
  SP.configure f p a g l s =
  SP.Build f p a g l (SP.m_time s) a
           (SP.m_max_temperature s) (SP.m_light_intensity s).
Proof. reflexivity. Qed.

(** The facade forwards the five parameters to the model unchanged. *)
Lemma set_parameters_physics (f p a : R) (g l : string) (s : Sim.t) :
  Sim.physics (Sim.set_parameters f p a g l s)
  = SP.configure f p a g l (Sim.physics s).
Proof. reflexivity. Qed.

(** Under valid configurations the parameters stay positive, the clock
    never runs backwards, and temperature and light are zero. *)
Lemma reachable_invariant (s : SP.t) :
  SP.reachable s ->
  0 < SP.m_frequency_hz s
  /\ 0 < SP.m_ambient_radius_mm s
  /\ 0 <= SP.m_time s
  /\ SP.m_max_temperature s = 0
  /\ SP.m_light_intensity s = 0.
Proof.
  induction 1 as [f p a g l Hf Ha
                 | s Hs (Hf & Ha & Ht & Htemp & Hlight)
                 | s f p a g l Hs (Hf' & Ha' & Ht & Htemp & Hlight) Hf Ha].
  - rewrite configure_fields. cbn. repeat split; lra.
  - destruct (simulate_step_parameters s) as (Ef & _ & Ea & _).
    destruct (simulate_step_dark s) as [Etemp Elight]; [lra | assumption |].
    rewrite Ef, Ea, simulate_step_time. repeat split; lra || assumption.
  - rewrite configure_fields. cbn. repeat split; lra || assumption.
Qed.

Lemma steps_time (n : nat) (s : SP.t) :
  SP.m_time (SP.steps n s) = SP.m_time s + INR n * (1 / 60).
Proof.
  induction n as [| n IH].
  - cbn. lra.
  - cbn [SP.steps]. rewrite simulate_step_time, IH, S_INR. lra.
Qed.

Lemma facade_step_physics (s : Sim.t) :
  Sim.physics (Sim.step s) = SP.simulate_step (Sim.physics s).
Proof. reflexivity. Qed.

Lemma facade_steps_physics (n : nat) (s : Sim.t) :
  Sim.physics (Sim.steps n s) = SP.steps n (Sim.physics s).
Proof.
  induction n as [| n IH]; [reflexivity |].
  cbn [Sim.steps SP.steps]. now rewrite facade_step_physics, IH.
Qed.

(** After a [step] the cache shows what the model holds. *)
Lemma facade_step_readout (s : Sim.t) :
  Sim.readout (Sim.step s)
  = (SP.get_radius (SP.simulate_step (Sim.physics s)),
     SP.get_max_temperature (SP.simulate_step (Sim.physics s)),
     SP.get_emitted_light (SP.simulate_step (Sim.physics s))).
Proof. reflexivity. Qed.

End ReachableFacts.

(** ** Two worked calls *)

Section WorkedCalls.

Import CMath.

(** The first [step] of a facade with its default parameters: the clock
    shows 1/60 s, which is 333 periods of 1/20000 s and a third of one, so
    the call is in the expansion phase. *)
Example default_first_step :
  let m := Sim.physics (Sim.step Sim.ctor) in
  SP.m_time m = 1 / 60
  /\ SP.t_in_period_of (Sim.physics Sim.ctor) = 1 / 60000
  /\ SP.path_of (Sim.physics Sim.ctor) = SP.Expansion
  /\ Sim.readout (Sim.step Sim.ctor)
     = (0.005 * (1 + sqrt 3 / 2), 0, 0).
Proof.
  assert (Htp : SP.t_in_period_of (Sim.physics Sim.ctor) = 1 / 60000).
  { unfold SP.t_in_period_of, SP.period_of. cbn.
    rewrite (fmod_periods _ _ 333); lra. }
  assert (Hexp : SP.t_in_period_of (Sim.physics Sim.ctor)
                 < SP.period_of (Sim.physics Sim.ctor) * 0.9).
  { rewrite Htp. unfold SP.period_of. cbn. lra. }
  cbn zeta. repeat split.
  - rewrite facade_step_physics, simulate_step_time. cbn. lra.
  - exact Htp.
  - unfold SP.path_of. destruct (Rlt_dec _ _); [reflexivity | contradiction].
  - rewrite facade_step_readout, simulate_step_expansion by exact Hexp.
    rewrite Htp. unfold SP.period_of, SP.get_radius, SP.get_max_temperature,
      SP.get_emitted_light, M_PI. cbn.
    replace (1 / 60000 / (1 / 20000) * PI) with (PI / 3) by field.
    rewrite sin_PI3. do 2 f_equal. lra.
Qed.

(** The severe-collapse path does run for [inverted_bubble]. *)
Example inverted_bubble_fields :
  SP.m_time inverted_bubble = 1 / 60
  /\ SP.m_current_radius inverted_bubble = - (3 / 4)
  /\ SP.m_max_temperature inverted_bubble = 100000 / 3
  /\ 0 < SP.m_light_intensity inverted_bubble.
Proof.
  set (s := SP.configure 55 1 (-1) "Argon" "Water" SP.ctor).
  assert (Htp : SP.t_in_period_of s = 1 / 60).
  { unfold SP.t_in_period_of, SP.period_of. cbn.
    rewrite fmod_below; lra. }
  assert (Hrad : SP.collapse_radius_of s = - (3 / 4)).
  { unfold SP.collapse_radius_of. rewrite Htp.
    unfold SP.period_of, M_PI. cbn.
    replace ((1 / 60 - 1 / 55 * 0.9) / (1 / 55 * 0.1) * PI)
      with (PI / 6) by lra.
    rewrite sin_PI6. lra. }
  assert (Hcol : ~ SP.t_in_period_of s < SP.period_of s * 0.9).
  { rewrite Htp. unfold SP.period_of. cbn. lra. }
  assert (Hdeep : SP.collapse_radius_of s < SP.m_ambient_radius_mm s * 0.5).
  { rewrite Hrad. cbn. lra. }
  unfold inverted_bubble. fold s.
  rewrite (simulate_step_severe s Hcol Hdeep), Hrad.
  cbn [SP.m_time SP.m_current_radius SP.m_max_temperature
       SP.m_light_intensity].
  assert (Hdiv : forall x : R, x / - (3 / 4) = x * - (4 / 3))
    by (intros x; field).
  repeat split.
  - cbn. lra.
  - cbn. rewrite Hdiv. lra.
  - apply emission_positive. cbn. rewrite Hdiv. lra.
Qed.

(** The call that leads to [inverted_bubble] takes the severe-collapse
    path. *)
Lemma inverted_configuration_severe :
  SP.path_of (SP.configure 55 1 (-1) "Argon" "Water" SP.ctor)
  = SP.SevereCollapse.
Proof.
  set (s := SP.configure 55 1 (-1) "Argon" "Water" SP.ctor).
  assert (Htp : SP.t_in_period_of s = 1 / 60).
  { unfold SP.t_in_period_of, SP.period_of. cbn.
    rewrite fmod_below; lra. }
  assert (Hrad : SP.collapse_radius_of s = - (3 / 4)).
  { unfold SP.collapse_radius_of. rewrite Htp.
    unfold SP.period_of, M_PI. cbn.
    replace ((1 / 60 - 1 / 55 * 0.9) / (1 / 55 * 0.1) * PI)
      with (PI / 6) by lra.
    rewrite sin_PI6. lra. }
  unfold SP.path_of. rewrite Htp, Hrad. unfold SP.period_of. cbn.
  destruct (Rlt_dec _ _) as [H | _]; [lra |].
  destruct (Rlt_dec _ _) as [_ | H]; [reflexivity | lra].
Qed.

(** The call after that one is 5/6 into the second period: expansion. *)
Lemma inverted_bubble_next_expanding :
  SP.t_in_period_of (SP.steps 0 inverted_bubble)
  < SP.period_of (SP.steps 0 inverted_bubble) * 0.9.
Proof.
  cbn [SP.steps]. unfold SP.t_in_period_of, SP.period_of.
  destruct inverted_bubble_fields as (Htime & _). rewrite Htime.
  unfold inverted_bubble.
  destruct (simulate_step_parameters
              (SP.configure 55 1 (-1) "Argon" "Water" SP.ctor)) as (Ef & _).
  rewrite Ef. cbn [SP.configure SP.set_liquid_type SP.set_gas_type
    SP.set_ambient_radius SP.set_pressure SP.set_frequency SP.m_frequency_hz].
  rewrite (fmod_periods _ _ 1); lra.
Qed.

End WorkedCalls.

(** ** Runs under one valid configuration *)

Section ValidRuns.

Lemma steps_reachable (f p a : R) (g l : string) (n : nat) :
  0 < f -> 0 < a ->
  SP.reachable (SP.steps n (SP.configure f p a g l SP.ctor)).
Proof.
  intros Hf Ha. induction n as [| n IH]; cbn [SP.steps].
  - now apply SP.reachable_configured.
  - now apply SP.reachable_step.
Qed.

(** A freshly constructed facade holds a reachable model. *)
Lemma facade_ctor_reachable : SP.reachable (Sim.physics Sim.ctor).
Proof.
  unfold Sim.ctor. rewrite set_parameters_physics. cbn [Sim.physics].
  apply SP.reachable_configured; lra.
Qed.

(** The first call on a fresh facade is in the expansion phase. *)
Lemma facade_ctor_expanding :
  SP.t_in_period_of (Sim.physics Sim.ctor)
  < SP.period_of (Sim.physics Sim.ctor) * 0.9.
Proof.
  destruct default_first_step as (_ & Htp & _).
  rewrite Htp. unfold SP.period_of. cbn. lra.
Qed.

(** Whenever the collapse paths compute a temperature, light shows exactly
    when that temperature has reached the emission floor. *)
Lemma collapse_light_iff (s : SP.t) :
  ~ SP.t_in_period_of s < SP.period_of s * 0.9 ->
  0 < SP.get_emitted_light (SP.simulate_step s)
  <-> 1000 <= SP.get_max_temperature (SP.simulate_step s).
Proof.
  intros Hcol.
  destruct (Rlt_dec (SP.collapse_radius_of s)
                    (SP.m_ambient_radius_mm s * 0.5)) as [Hdeep | Hsh].
  - rewrite simulate_step_severe by assumption.
    unfold SP.get_emitted_light, SP.get_max_temperature.
    cbn [SP.m_light_intensity SP.m_max_temperature].
    apply emission_lights_iff.
  - rewrite simulate_step_mild by assumption.
    unfold SP.get_emitted_light, SP.get_max_temperature.
    cbn [SP.m_light_intensity SP.m_max_temperature]. lra.
Qed.

End ValidRuns.

(** * The claims *)

(** C1.  Take any state reached under configurations whose frequency and
    ambient radius are positive.  If the call of [simulate_step] made from
    it finds [t_in_period < 0.9 * period], then after the call
    [get_max_temperature] and [get_emitted_light] both return 0, whatever
    the radius.  (The expansion path writes the temperature only; the
    light is 0 because no earlier call could make it anything else.) *)
Theorem C1_expansion_phase_is_dark (s : SP.t) :
  SP.reachable s ->
  SP.t_in_period_of s < SP.period_of s * 0.9 ->
  SP.get_max_temperature (SP.simulate_step s) = 0
  /\ SP.get_emitted_light (SP.simulate_step s) = 0.
Proof.
  intros Hreach _.
  destruct (reachable_invariant s Hreach) as (_ & Ha & _ & _ & Hlight).
  apply simulate_step_dark; [lra | exact Hlight].
Qed.

Lemma C1_witness :
  SP.get_max_temperature (SP.simulate_step (Sim.physics Sim.ctor)) = 0
  /\ SP.get_emitted_light (SP.simulate_step (Sim.physics Sim.ctor)) = 0.
Proof.
  apply (C1_expansion_phase_is_dark (Sim.physics Sim.ctor)).
  - exact facade_ctor_reachable.
  - exact facade_ctor_expanding.
Defined.

(** C2.  With a positive frequency and a positive ambient radius, the
    collapse-phase radius
    [a * (1 - 0.5 * sin (PI * (t - 0.9 * period) / (0.1 * period)))] is at
    least [0.5 * a] for every phase value [t], because [sin <= 1]; so from
    no state of a run does a call take the severe-collapse path, and in
    every state of the run -- the model constructed, configured, then
    stepped any number of times -- temperature and light read 0. *)
Theorem C2_severe_collapse_never_runs
    (f p a : R) (g l : string) (n : nat) :
  0 < f -> 0 < a ->
  let period := 1 / f in
  let s := SP.steps n (SP.configure f p a g l SP.ctor) in
  (forall t : R,
     a * (1 - 0.5 * sin (PI * (t - 0.9 * period) / (0.1 * period)))
     >= 0.5 * a)
  /\ SP.collapse_radius_of s >= 0.5 * SP.m_ambient_radius_mm s
  /\ SP.path_of s <> SP.SevereCollapse
  /\ SP.get_max_temperature s = 0
  /\ SP.get_emitted_light s = 0.
Proof.
  intros Hf Ha period s.
  assert (Hreach : SP.reachable s) by now apply steps_reachable.
  destruct (reachable_invariant s Hreach) as (_ & Ha' & _ & Htemp & Hlight).
  split; [| split; [| split; [| split]]].
  - intros t.
    pose proof (collapse_radius_floor a
      (PI * (t - 0.9 * period) / (0.1 * period))). lra.
  - unfold SP.collapse_radius_of.
    pose proof (collapse_radius_floor (SP.m_ambient_radius_mm s)
      ((SP.t_in_period_of s - SP.period_of s * 0.9)
       / (SP.period_of s * 0.1) * CMath.M_PI)). lra.
  - apply path_of_never_severe. lra.
  - exact Htemp.
  - exact Hlight.
Qed.

Lemma C2_witness :
  let s := SP.steps 2 (SP.configure 20000 1.35 0.005 "Argon" "Water" SP.ctor) in
  SP.path_of s <> SP.SevereCollapse
  /\ SP.get_max_temperature s = 0
  /\ SP.get_emitted_light s = 0.
Proof.
  destruct (C2_severe_collapse_never_runs 20000 1.35 0.005
              "Argon" "Water" 2) as (_ & _ & Hpath & Htemp & Hlight).
  - lra.
  - lra.
  - cbv zeta. exact (conj Hpath (conj Htemp Hlight)).
Defined.

(** C3 as stated fails: [inverted_bubble] is a state the model gets into
    (constructed, given 55 Hz and the rest radius -1, stepped once), and the
    configuration that follows has a positive frequency and a positive
    radius; the radius is reset, the temperature the model holds is still
    the 100000/3 of the collapse. *)
Lemma C3_counterexample :
  let m := SP.configure 20000 1.35 0.005 "Argon" "Water" inverted_bubble in
  0 < 20000 /\ 0 < 0.005
  /\ ~ (SP.get_radius m = 0.005
        /\ SP.get_max_temperature m = 0
        /\ SP.get_emitted_light m = 0).
Proof.
  cbv zeta. split; [lra |]. split; [lra |].
  intros (_ & Htemp & _).
  destruct inverted_bubble_fields as (_ & _ & Hkept & _).
  rewrite configure_fields in Htemp.
  unfold SP.get_max_temperature in Htemp. cbn [SP.m_max_temperature] in Htemp.
  lra.
Qed.

(** C3, amended.  For a positive frequency and a positive ambient radius,
    right after the configuration is applied, from any prior state:
    the model's [get_radius] returns the new ambient radius; the model's
    [get_max_temperature] and [get_emitted_light] return what they returned
    before, which is 0 whenever the prior state was reached under valid
    configurations; and the facade's three cached read-outs are the new
    ambient radius, 0 and 0. *)
Theorem C3_configure_resets_radius_and_cache
    (f p a : R) (g l : string) (s : Sim.t) :
  0 < f -> 0 < a ->
  let m := SP.configure f p a g l (Sim.physics s) in
  let s' := Sim.set_parameters f p a g l s in
  SP.get_radius m = a
  /\ SP.get_max_temperature m = SP.get_max_temperature (Sim.physics s)
  /\ SP.get_emitted_light m = SP.get_emitted_light (Sim.physics s)
  /\ (SP.reachable (Sim.physics s) ->
      SP.get_max_temperature m = 0 /\ SP.get_emitted_light m = 0)
  /\ Sim.physics s' = m
  /\ Sim.get_bubble_radius s' = a
  /\ Sim.get_peak_temperature s' = 0
  /\ Sim.get_light_intensity s' = 0.
Proof.
  intros Hf Ha m s'.
  repeat match goal with |- _ /\ _ => split end; try reflexivity.
  intros Hreach.
  destruct (reachable_invariant _ Hreach) as (_ & _ & _ & Htemp & Hlight).
  subst m. rewrite configure_fields.
  unfold SP.get_max_temperature, SP.get_emitted_light.
  cbn [SP.m_max_temperature SP.m_light_intensity]. now split.
Qed.

Lemma C3_witness :
  let s := Sim.step Sim.ctor in
  let m := SP.configure 26500 1.2 0.004 "Xenon" "Glycerol" (Sim.physics s) in
  let s' := Sim.set_parameters 26500 1.2 0.004 "Xenon" "Glycerol" s in
  SP.get_radius m = 0.004
  /\ SP.get_max_temperature m = 0
  /\ SP.get_emitted_light m = 0
  /\ Sim.readout s' = (0.004, 0, 0).
Proof.
  destruct (C3_configure_resets_radius_and_cache
              26500 1.2 0.004 "Xenon" "Glycerol" (Sim.step Sim.ctor))
    as (Hr & _ & _ & Hdark & _ & Hcr & Hct & Hcl).
  - lra.
  - lra.
  - cbv zeta. destruct Hdark as [Htemp Hlight].
    + rewrite facade_step_physics. apply SP.reachable_step.
      exact facade_ctor_reachable.
    + unfold Sim.readout. rewrite Hcr, Hct, Hcl.
      exact (conj Hr (conj Htemp (conj Hlight eq_refl))).
Defined.

(** C4.  With a positive frequency, one call of [simulate_step] sets, for
    [period = 1 / frequency] and
    [t_in_period = fmod (time + 1/60) period]:
    in the expansion phase ([t_in_period < 0.9 * period]) the radius
    [a * (1 + sin (PI * t_in_period / period))]; otherwise the radius
    [a * (1 - 0.5 * sin (PI * (t_in_period - 0.9 * period) / (0.1 * period)))]
    and, when that radius is below [0.5 * a], the temperature
    [50000 * ((0.5 * a) / radius)] and the light [emission temperature],
    else temperature 0 and light 0.  [emission T] is 0 below 1000 and
    [exp ((T - 1000) / 10000)] from 1000 on.  For a clock that is not
    negative the [fmod] is the remainder of the division by the period. *)
Theorem C4_step_formulas (s : SP.t) :
  0 < SP.m_frequency_hz s ->
  let a := SP.m_ambient_radius_mm s in
  let period := 1 / SP.m_frequency_hz s in
  let t_in_period := CMath.fmod (SP.m_time s + 1 / 60) period in
  let s' := SP.simulate_step s in
  (t_in_period < 0.9 * period ->
     SP.get_radius s' = a * (1 + sin (PI * t_in_period / period)))
  /\ (~ t_in_period < 0.9 * period ->
      SP.get_radius s'
      = a * (1 - 0.5 * sin (PI * (t_in_period - 0.9 * period)
                            / (0.1 * period)))
      /\ (SP.get_radius s' < 0.5 * a ->
          SP.get_max_temperature s' = 50000 * ((0.5 * a) / SP.get_radius s')
          /\ SP.get_emitted_light s'
             = SP.model_thermal_emission (SP.get_max_temperature s'))
      /\ (~ SP.get_radius s' < 0.5 * a ->
          SP.get_max_temperature s' = 0 /\ SP.get_emitted_light s' = 0))
  /\ (forall T : R, T < 1000 -> SP.model_thermal_emission T = 0)
  /\ (forall T : R,
        1000 <= T -> SP.model_thermal_emission T = exp ((T - 1000) / 10000))
  /\ (0 <= SP.m_time s ->
      0 <= t_in_period < period
      /\ exists k : Z,
           (0 <= k)%Z /\ SP.m_time s + 1 / 60 = IZR k * period + t_in_period).
Proof.
  intros Hf a period t_in_period s'.
  assert (Hperiod : 0 < period).
  { unfold period. apply Rdiv_lt_0_compat; lra. }
  assert (Hguard : SP.t_in_period_of s < SP.period_of s * 0.9
                   <-> t_in_period < 0.9 * period).
  { unfold SP.t_in_period_of, SP.period_of, t_in_period, period. lra. }
  assert (Hexp_radius :
            SP.m_ambient_radius_mm s
            * (1 + 1 * sin (SP.t_in_period_of s / SP.period_of s
                            * CMath.M_PI))
            = a * (1 + sin (PI * t_in_period / period))).
  { unfold SP.t_in_period_of, SP.period_of, CMath.M_PI, t_in_period,
      period, a.
    rewrite Rmult_1_l. do 3 f_equal. unfold Rdiv. ring. }
  assert (Hcol_radius :
            SP.collapse_radius_of s
            = a * (1 - 0.5 * sin (PI * (t_in_period - 0.9 * period)
                                  / (0.1 * period)))).
  { unfold SP.collapse_radius_of, SP.t_in_period_of, SP.period_of,
      CMath.M_PI, t_in_period, period, a.
    do 4 f_equal.
    rewrite (Rmult_comm (1 / SP.m_frequency_hz s) 0.9).
    rewrite (Rmult_comm (1 / SP.m_frequency_hz s) 0.1).
    unfold Rdiv. ring. }
  assert (Hhalf : SP.m_ambient_radius_mm s * 0.5 = 0.5 * a)
    by (unfold a; lra).
  split; [| split; [| split; [| split]]].
  - intros Hexp. apply Hguard in Hexp. subst s'.
    rewrite simulate_step_expansion by assumption.
    unfold SP.get_radius. cbn [SP.m_current_radius]. exact Hexp_radius.
  - intros Hcol.
    assert (Hcol' : ~ SP.t_in_period_of s < SP.period_of s * 0.9)
      by (intros H; apply Hcol, Hguard, H).
    destruct (Rlt_dec (SP.collapse_radius_of s)
                      (SP.m_ambient_radius_mm s * 0.5)) as [Hdeep | Hsh].
    + subst s'. rewrite simulate_step_severe by assumption.
      unfold SP.get_radius, SP.get_max_temperature, SP.get_emitted_light.
      cbn [SP.m_current_radius SP.m_max_temperature SP.m_light_intensity].
      split; [exact Hcol_radius |]. split.
      * intros _. rewrite Hhalf. now split.
      * intros Hno. lra.
    + subst s'. rewrite simulate_step_mild by assumption.
      unfold SP.get_radius, SP.get_max_temperature, SP.get_emitted_light.
      cbn [SP.m_current_radius SP.m_max_temperature SP.m_light_intensity].
      split; [exact Hcol_radius |]. split.
      * intros Hyes. lra.
      * intros _. now split.
  - exact emission_below.
  - exact emission_from.
  - intros Htime. apply fmod_remainder; lra.
Qed.

Lemma C4_witness :
  SP.get_radius (SP.simulate_step (Sim.physics Sim.ctor))
  = 0.005 * (1 + sin (PI * CMath.fmod (0 + 1 / 60) (1 / 20000) / (1 / 20000))).
Proof.
  destruct (C4_step_formulas (Sim.physics Sim.ctor)) as (Hexp & _).
  - cbn. lra.
  - apply Hexp.
    pose proof facade_ctor_expanding as H.
    unfold SP.t_in_period_of, SP.period_of in H. cbn in H |- *. lra.
Defined.

(** C5.  After a call of [simulate_step] the light is positive if and only
    if the temperature that call computed is at least 1000: in every state
    reached under configurations whose frequency and ambient radius are
    positive, and in any state at all whose call takes a collapse path,
    where a temperature is computed.  On the severe-collapse path the light
    is the emission model at that temperature, and the emission model is
    positive exactly from 1000 on. *)
Theorem C5_light_iff_temperature_floor (s : SP.t) :
  SP.reachable s \/ SP.path_of s <> SP.Expansion ->
  (0 < SP.get_emitted_light (SP.simulate_step s)
   <-> 1000 <= SP.get_max_temperature (SP.simulate_step s))
  /\ (SP.path_of s = SP.SevereCollapse ->
      SP.get_emitted_light (SP.simulate_step s)
      = SP.model_thermal_emission
          (SP.get_max_temperature (SP.simulate_step s)))
  /\ (forall T : R, 0 < SP.model_thermal_emission T <-> 1000 <= T).
Proof.
  intros Hs. pose proof (path_of_guards s) as G.
  split; [| split].
  - destruct (Rlt_dec (SP.t_in_period_of s) (SP.period_of s * 0.9))
      as [Hexp | Hcol]; [| now apply collapse_light_iff].
    destruct Hs as [Hreach | Hpath].
    + destruct (reachable_invariant _ (SP.reachable_step s Hreach))
        as (_ & _ & _ & Htemp & Hlight).
      unfold SP.get_emitted_light, SP.get_max_temperature.
      rewrite Htemp, Hlight. lra.
    + exfalso. apply Hpath. unfold SP.path_of.
      destruct (Rlt_dec (SP.t_in_period_of s) (SP.period_of s * 0.9));
        [reflexivity | contradiction].
  - intros Hsevere. rewrite Hsevere in G. destruct G as [G1 G2].
    now rewrite (simulate_step_severe s G1 G2).
  - exact emission_lights_iff.
Qed.

Lemma C5_witness :
  (0 < SP.get_emitted_light inverted_bubble
   <-> 1000 <= SP.get_max_temperature inverted_bubble)
  /\ 0 < SP.get_emitted_light inverted_bubble.
Proof.
  destruct (C5_light_iff_temperature_floor
              (SP.configure 55 1 (-1) "Argon" "Water" SP.ctor))
    as (Hiff & _ & _).
  - right. rewrite inverted_configuration_severe. discriminate.
  - split; [exact Hiff |].
    destruct inverted_bubble_fields as (_ & _ & _ & Hlit). exact Hlit.
Defined.

(** C6.  A configuration leaves the elapsed time as it was, on the model
    and through the facade, for every five parameters and every state; the
    constructors are what sets it to zero, so a facade stepped [n] times
    and then reconfigured still shows [n / 60]. *)
Theorem C6_configure_keeps_time
    (f p a : R) (g l : string) (m : SP.t) (s : Sim.t) (n : nat) :
  SP.m_time (SP.configure f p a g l m) = SP.m_time m
  /\ SP.m_time (Sim.physics (Sim.set_parameters f p a g l s))
     = SP.m_time (Sim.physics s)
  /\ SP.m_time SP.ctor = 0
  /\ SP.m_time (Sim.physics Sim.ctor) = 0
  /\ SP.m_time (Sim.physics
                  (Sim.set_parameters f p a g l (Sim.steps n Sim.ctor)))
     = INR n * (1 / 60).
Proof.
  repeat match goal with |- _ /\ _ => split end; try reflexivity.
  rewrite set_parameters_physics, configure_fields. cbn [SP.m_time].
  rewrite facade_steps_physics, steps_time. cbn. lra.
Qed.

(** ** The clock in binary64 *)

Section ClockFacts.



End ClockFacts.




(** Light over a stretch of calls that all take the expansion path. *)
Lemma expansion_stretch_light (n : nat) (s : SP.t) :
  (forall k : nat, (k < n)%nat ->
     SP.t_in_period_of (SP.steps k s) < SP.period_of (SP.steps k s) * 0.9) ->
  SP.m_light_intensity (SP.steps n s) = SP.m_light_intensity s.
Proof.
  induction n as [| n IH]; intros Hall; [reflexivity |].
  cbn [SP.steps].
  rewrite simulate_step_expansion by (apply Hall; lia).
  cbn [SP.m_light_intensity]. apply IH. intros k Hk. apply Hall. lia.
Qed.

(** C8.  A call of [simulate_step] that takes the expansion path writes
    the elapsed time, the current radius and the temperature, and leaves
    the light as it was.  So over a stretch of such calls
    [get_emitted_light] keeps returning what it returned before the
    stretch: the light of the last collapse-path call, or the
    constructor's 0, which a configuration does not touch either. *)
Theorem C8_expansion_leaves_light (s : SP.t) (n : nat) :
  (forall k : nat, (k < S n)%nat ->
     SP.t_in_period_of (SP.steps k s) < SP.period_of (SP.steps k s) * 0.9) ->
  SP.m_time (SP.simulate_step s) = SP.m_time s + 1 / 60
  /\ SP.m_current_radius (SP.simulate_step s)
     = SP.m_ambient_radius_mm s
       * (1 + 1 * sin (SP.t_in_period_of s / SP.period_of s * CMath.M_PI))
  /\ SP.m_max_temperature (SP.simulate_step s) = 0
  /\ SP.get_emitted_light (SP.simulate_step s) = SP.get_emitted_light s
  /\ SP.get_emitted_light (SP.steps (S n) s) = SP.get_emitted_light s
  /\ SP.get_emitted_light SP.ctor = 0
  /\ (forall (f p a : R) (g l : string),
        SP.get_emitted_light (SP.configure f p a g l s)
        = SP.get_emitted_light s).
Proof.
  intros Hall.
  assert (Hfirst : SP.t_in_period_of s < SP.period_of s * 0.9)
    by (apply (Hall O); lia).
  rewrite (simulate_step_expansion s Hfirst).
  unfold SP.get_emitted_light.
  cbn [SP.m_time SP.m_current_radius SP.m_max_temperature
       SP.m_light_intensity].
  repeat match goal with |- _ /\ _ => split end; try reflexivity.
  now apply expansion_stretch_light.
Qed.

Lemma C8_witness :
  SP.get_emitted_light (SP.simulate_step inverted_bubble)
  = SP.get_emitted_light inverted_bubble
  /\ SP.m_max_temperature (SP.simulate_step inverted_bubble) = 0.
Proof.
  destruct (C8_expansion_leaves_light inverted_bubble 0)
    as (_ & _ & Htemp & Hlight & _).
  - intros k Hk. assert (k = O) by lia. subst k.
    exact inverted_bubble_next_expanding.
  - exact (conj Hlight Htemp).
Defined.

(** ** Runs of the facade *)

Section FacadeRuns.

(** The numbers of two facades stay equal under calls that differ in the
    labels only. *)
Lemma exec_same_numbers (c1 c2 : Sim.call) (s1 s2 : Sim.t) :
  Sim.same_up_to_labels c1 c2 ->
  Sim.same_numbers s1 s2 ->
  Sim.same_numbers (Sim.exec c1 s1) (Sim.exec c2 s2).
Proof.
  intros Hc (Hf & Hp & Ha & Ht & Hr & Htemp & Hl & Hout).
  destruct Hc as [f p a g1 l1 g2 l2 |]; cbn [Sim.exec].
  - unfold Sim.same_numbers. rewrite !set_parameters_physics.
    rewrite !configure_fields.
    cbn [SP.m_frequency_hz SP.m_pressure_atm SP.m_ambient_radius_mm
         SP.m_time SP.m_current_radius SP.m_max_temperature
         SP.m_light_intensity].
    repeat match goal with |- _ /\ _ => split end;
      reflexivity || assumption.
  - assert (Hm : forall (m1 m2 : SP.t),
               SP.m_frequency_hz m1 = SP.m_frequency_hz m2 ->
               SP.m_ambient_radius_mm m1 = SP.m_ambient_radius_mm m2 ->
               SP.m_time m1 = SP.m_time m2 ->
               SP.m_light_intensity m1 = SP.m_light_intensity m2 ->
               SP.m_time (SP.simulate_step m1) = SP.m_time (SP.simulate_step m2)
               /\ SP.m_current_radius (SP.simulate_step m1)
                  = SP.m_current_radius (SP.simulate_step m2)
               /\ SP.m_max_temperature (SP.simulate_step m1)
                  = SP.m_max_temperature (SP.simulate_step m2)
               /\ SP.m_light_intensity (SP.simulate_step m1)
                  = SP.m_light_intensity (SP.simulate_step m2)).
    { intros m1 m2 Ef Ea Et El. destruct m1, m2.
      cbn [SP.m_frequency_hz SP.m_ambient_radius_mm SP.m_time
           SP.m_light_intensity] in Ef, Ea, Et, El. subst.
      unfold SP.simulate_step.
      cbn [SP.assign_time SP.assign_current_radius SP.assign_max_temperature
           SP.assign_light_intensity
           SP.m_frequency_hz SP.m_pressure_atm SP.m_ambient_radius_mm
           SP.m_gas_type SP.m_liquid_type SP.m_time SP.m_current_radius
           SP.m_max_temperature SP.m_light_intensity].
      repeat (destruct (Rlt_dec _ _)); cbn; repeat split; reflexivity. }
    destruct (Hm _ _ Hf Ha Ht Hl) as (Et' & Er' & Etemp' & El').
    destruct (simulate_step_parameters (Sim.physics s1))
      as (Ef1 & Ep1 & Ea1 & _).
    destruct (simulate_step_parameters (Sim.physics s2))
      as (Ef2 & Ep2 & Ea2 & _).
    unfold Sim.same_numbers, Sim.readout, Sim.get_bubble_radius,
      Sim.get_peak_temperature, Sim.get_light_intensity.
    rewrite !facade_step_physics. unfold Sim.step.
    cbn [Sim.current_bubble_radius Sim.current_peak_temperature
         Sim.current_light_intensity].
    unfold SP.get_radius, SP.get_max_temperature, SP.get_emitted_light.
    rewrite Ef1, Ef2, Ep1, Ep2, Ea1, Ea2, Et', Er', Etemp', El'.
    repeat match goal with |- _ /\ _ => split end;
      reflexivity || assumption.
Qed.

Lemma run_same_numbers (cs1 cs2 : list Sim.call) :
  Forall2 Sim.same_up_to_labels cs1 cs2 ->
  forall s1 s2 : Sim.t,
    Sim.same_numbers s1 s2 ->
    Sim.trace cs1 s1 = Sim.trace cs2 s2
    /\ Sim.same_numbers (Sim.run cs1 s1) (Sim.run cs2 s2).
Proof.
  induction 1 as [| c1 c2 cs1 cs2 Hc Hcs IH]; intros s1 s2 Hs.
  - now split.
  - cbn [Sim.trace Sim.run].
    pose proof (exec_same_numbers c1 c2 s1 s2 Hc Hs) as Hs'.
    destruct (IH _ _ Hs') as [Htr Hrun].
    split; [| exact Hrun].
    f_equal; [| exact Htr].
    destruct Hs' as (_ & _ & _ & _ & _ & _ & _ & Hout). exact Hout.
Qed.

Lemma same_numbers_refl (s : Sim.t) : Sim.same_numbers s s.
Proof. unfold Sim.same_numbers. repeat split. Qed.

End FacadeRuns.

(** C10.  Two runs from a fresh facade whose calls differ at most in the
    gas and liquid labels given to [set_parameters] show the same cached
    read-outs after every call, and their models hold the same numbers, so
    [get_radius], [get_max_temperature] and [get_emitted_light] agree too.
    The labels are stored and nothing reads them. *)
Theorem C10_labels_do_not_matter (cs1 cs2 : list Sim.call) :
  Forall2 Sim.same_up_to_labels cs1 cs2 ->
  let s1 := Sim.run cs1 Sim.ctor in
  let s2 := Sim.run cs2 Sim.ctor in
  Sim.trace cs1 Sim.ctor = Sim.trace cs2 Sim.ctor
  /\ Sim.readout s1 = Sim.readout s2
  /\ SP.get_radius (Sim.physics s1) = SP.get_radius (Sim.physics s2)
  /\ SP.get_max_temperature (Sim.physics s1)
     = SP.get_max_temperature (Sim.physics s2)
  /\ SP.get_emitted_light (Sim.physics s1)
     = SP.get_emitted_light (Sim.physics s2)
  /\ Sim.same_numbers s1 s2
  /\ (forall (f p a : R) (g l : string) (s : Sim.t),
        SP.m_gas_type (Sim.physics (Sim.set_parameters f p a g l s)) = g
        /\ SP.m_liquid_type (Sim.physics (Sim.set_parameters f p a g l s))
           = l).
Proof.
  intros Hcs s1 s2.
  destruct (run_same_numbers cs1 cs2 Hcs Sim.ctor Sim.ctor
              (same_numbers_refl Sim.ctor)) as [Htr Hnum].
  fold s1 s2 in Hnum.
  pose proof Hnum as (_ & _ & _ & _ & Hr & Htemp & Hl & Hout).
  unfold SP.get_radius, SP.get_max_temperature, SP.get_emitted_light.
  repeat match goal with |- _ /\ _ => split end; try assumption.
  intros f p a g l s. split; reflexivity.
Qed.

Lemma C10_witness :
  Sim.readout
    (Sim.run [Sim.SetParameters 26500 1.2 0.004 "Argon" "Water"; Sim.Step]
             Sim.ctor)
  = Sim.readout
      (Sim.run [Sim.SetParameters 26500 1.2 0.004 "Xenon" "Glycerol"; Sim.Step]
               Sim.ctor).
Proof.
  destruct (C10_labels_do_not_matter
              [Sim.SetParameters 26500 1.2 0.004 "Argon" "Water"; Sim.Step]
              [Sim.SetParameters 26500 1.2 0.004 "Xenon" "Glycerol"; Sim.Step])
    as (_ & Hout & _).
  - repeat constructor.
  - exact Hout.
Defined.

(** * Further properties of the stepping function and of the facade *)

(** ** What one call reads *)

Section StepReads.

Import CMath.

(** Two states with the same frequency, ambient radius and phase position
    take the same path and get the same radius and temperature; the light
    is the same too unless the path is the expansion path and the lights
    held before differ. *)
Lemma same_phase_same_step (s1 s2 : SP.t) :
  SP.m_frequency_hz s1 = SP.m_frequency_hz s2 ->
  SP.m_ambient_radius_mm s1 = SP.m_ambient_radius_mm s2 ->
  SP.t_in_period_of s1 = SP.t_in_period_of s2 ->
  SP.path_of s1 = SP.path_of s2
  /\ SP.m_current_radius (SP.simulate_step s1)
     = SP.m_current_radius (SP.simulate_step s2)
  /\ SP.m_max_temperature (SP.simulate_step s1)
     = SP.m_max_temperature (SP.simulate_step s2)
  /\ (SP.m_light_intensity s1 = SP.m_light_intensity s2
      \/ SP.path_of s1 <> SP.Expansion ->
      SP.m_light_intensity (SP.simulate_step s1)
      = SP.m_light_intensity (SP.simulate_step s2)).
Proof.
  intros Ef Ea Etp.
  assert (Ep : SP.period_of s1 = SP.period_of s2)
    by (unfold SP.period_of; now rewrite Ef).
  assert (Er : SP.collapse_radius_of s1 = SP.collapse_radius_of s2)
    by (unfold SP.collapse_radius_of; now rewrite Ea, Etp, Ep).
  assert (Epath : SP.path_of s1 = SP.path_of s2)
    by (unfold SP.path_of; now rewrite Etp, Ep, Er, Ea).
  split; [exact Epath |].
  pose proof (path_of_guards s1) as G1.
  pose proof (path_of_guards s2) as G2.
  rewrite <- Epath in G2.
  destruct (SP.path_of s1).
  - rewrite (simulate_step_expansion s1 G1), (simulate_step_expansion s2 G2).
    cbn [SP.m_current_radius SP.m_max_temperature SP.m_light_intensity].
    rewrite Ea, Etp, Ep. repeat split.
    intros [El | Hne]; [exact El | now elim Hne].
  - destruct G1 as [G1a G1b], G2 as [G2a G2b].
    rewrite (simulate_step_severe s1 G1a G1b),
            (simulate_step_severe s2 G2a G2b).
    cbn [SP.m_current_radius SP.m_max_temperature SP.m_light_intensity].
    rewrite Ea, Er. repeat split.
  - destruct G1 as [G1a G1b], G2 as [G2a G2b].
    rewrite (simulate_step_mild s1 G1a G1b), (simulate_step_mild s2 G2a G2b).
    cbn [SP.m_current_radius SP.m_max_temperature SP.m_light_intensity].
    rewrite Er. repeat split.
Qed.

End StepReads.

(** X1.  What a call of [simulate_step] leaves in the radius and in the
    temperature depends on the frequency, the ambient radius and the
    elapsed time alone: not on the pressure, not on the labels, not on the
    radius or the temperature held before.  The light depends on the light
    held before as well, and only on the expansion path. *)
Theorem X1_step_reads_drive_and_clock (s1 s2 : SP.t) :
  SP.m_frequency_hz s1 = SP.m_frequency_hz s2 ->
  SP.m_ambient_radius_mm s1 = SP.m_ambient_radius_mm s2 ->
  SP.m_time s1 = SP.m_time s2 ->
  SP.get_radius (SP.simulate_step s1) = SP.get_radius (SP.simulate_step s2)
  /\ SP.get_max_temperature (SP.simulate_step s1)
     = SP.get_max_temperature (SP.simulate_step s2)
  /\ (SP.get_emitted_light s1 = SP.get_emitted_light s2
      \/ SP.path_of s1 <> SP.Expansion ->
      SP.get_emitted_light (SP.simulate_step s1)
      = SP.get_emitted_light (SP.simulate_step s2)).
Proof.
  intros Ef Ea Et.
  assert (Etp : SP.t_in_period_of s1 = SP.t_in_period_of s2)
    by (unfold SP.t_in_period_of, SP.period_of; now rewrite Ef, Et).
  destruct (same_phase_same_step s1 s2 Ef Ea Etp) as (_ & Hr & Htemp & Hl).
  unfold SP.get_radius, SP.get_max_temperature, SP.get_emitted_light.
  auto.
Qed.

Lemma X1_witness :
  SP.get_radius
    (SP.simulate_step (SP.configure 20000 1.35 0.005 "Argon" "Water" SP.ctor))
  = SP.get_radius
      (SP.simulate_step
         (SP.configure 20000 1 0.005 "Xenon" "Glycerol" SP.ctor)).
Proof.
  apply (X1_step_reads_drive_and_clock
           (SP.configure 20000 1.35 0.005 "Argon" "Water" SP.ctor)
           (SP.configure 20000 1 0.005 "Xenon" "Glycerol" SP.ctor));
    reflexivity.
Defined.

(** X2.  The elapsed time enters a call only through its remainder
    modulo the period.  Two states with the same frequency and ambient
    radius whose [t_in_period] are equal take the same path and get the
    same radius and the same temperature, however far apart their clocks
    are; they get the same light too, unless the path is the expansion
    path and the lights they held differ. *)
Theorem X2_phase_decides_the_step (s1 s2 : SP.t) :
  SP.m_frequency_hz s1 = SP.m_frequency_hz s2 ->
  SP.m_ambient_radius_mm s1 = SP.m_ambient_radius_mm s2 ->
  SP.t_in_period_of s1 = SP.t_in_period_of s2 ->
  SP.path_of s1 = SP.path_of s2
  /\ SP.get_radius (SP.simulate_step s1) = SP.get_radius (SP.simulate_step s2)
  /\ SP.get_max_temperature (SP.simulate_step s1)
     = SP.get_max_temperature (SP.simulate_step s2)
  /\ (SP.get_emitted_light s1 = SP.get_emitted_light s2
      \/ SP.path_of s1 <> SP.Expansion ->
      SP.get_emitted_light (SP.simulate_step s1)
      = SP.get_emitted_light (SP.simulate_step s2)).
Proof.
  intros Ef Ea Etp.
  exact (same_phase_same_step s1 s2 Ef Ea Etp).
Qed.

Lemma X2_witness :
  let s := SP.configure 60 1.35 0.005 "Argon" "Water" SP.ctor in
  SP.m_time s <> SP.m_time (SP.simulate_step s)
  /\ SP.get_radius (SP.simulate_step s)
     = SP.get_radius (SP.simulate_step (SP.simulate_step s)).
Proof.
  set (s := SP.configure 60 1.35 0.005 "Argon" "Water" SP.ctor).
  destruct (simulate_step_parameters s) as (Ef & _ & Ea & _).
  assert (Ht1 : SP.t_in_period_of s = 0).
  { unfold SP.t_in_period_of, SP.period_of. cbn.
    rewrite (fmod_periods _ _ 1); lra. }
  assert (Ht2 : SP.t_in_period_of (SP.simulate_step s) = 0).
  { unfold SP.t_in_period_of, SP.period_of.
    rewrite Ef, simulate_step_time. cbn.
    rewrite (fmod_periods _ _ 2); lra. }
  destruct (X2_phase_decides_the_step s (SP.simulate_step s))
    as (_ & Hr & _).
  - now rewrite Ef.
  - now rewrite Ea.
  - now rewrite Ht1, Ht2.
  - split; [| exact Hr]. rewrite simulate_step_time. cbn. lra.
Defined.

(** ** The envelope of the radius *)

Section Envelope.

(** Where the sine is not negative, the waveform stays between the
    ambient radius and its bounds. *)
Lemma step_radius_envelope (s : SP.t) :
  0 < SP.m_frequency_hz s ->
  0 <= SP.m_ambient_radius_mm s ->
  0 <= SP.m_time s ->
  let a := SP.m_ambient_radius_mm s in
  let r := SP.get_radius (SP.simulate_step s) in
  (SP.path_of s = SP.Expansion -> a <= r <= 2 * a)
  /\ (SP.path_of s <> SP.Expansion -> 0.5 * a <= r <= a)
  /\ 0.5 * a <= r <= 2 * a.
Proof.
  intros Hf Ha Ht a r.
  set (period := SP.period_of s).
  set (tp := SP.t_in_period_of s).
  assert (Hperiod : 0 < period)
    by (unfold period, SP.period_of; apply Rdiv_lt_0_compat; lra).
  assert (Htp : 0 <= tp < period).
  { unfold tp, SP.t_in_period_of. fold period.
    apply fmod_remainder; lra. }
  pose proof PI_RGT_0 as Hpi.
  assert (Ha' : 0 <= a) by exact Ha.
  assert (Hexp : SP.path_of s = SP.Expansion -> a <= r <= 2 * a).
  { intros Hpath. pose proof (path_of_guards s) as G. rewrite Hpath in G.
    fold tp period in G.
    unfold r. rewrite (simulate_step_expansion s G).
    unfold SP.get_radius. cbn [SP.m_current_radius].
    fold tp period a. unfold CMath.M_PI.
    set (q := tp / period).
    assert (Hq : q * period = tp) by (unfold q; field; lra).
    assert (Hq' : 0 <= q <= 1) by (split; nra).
    assert (Hsin : 0 <= sin (q * PI)) by (apply sin_ge_0; nra).
    destruct (SIN_bound (q * PI)) as [_ Hle].
    assert (Hprod : 0 <= a * sin (q * PI)) by (apply Rmult_le_pos; lra).
    assert (Hrest : 0 <= a * (1 - sin (q * PI)))
      by (apply Rmult_le_pos; lra).
    split; lra. }
  assert (Hcol : SP.path_of s <> SP.Expansion -> 0.5 * a <= r <= a).
  { intros Hpath. pose proof (path_of_guards s) as G.
    assert (Hr : r = SP.collapse_radius_of s
                 /\ ~ tp < period * 0.9).
    { unfold r, SP.get_radius.
      destruct (SP.path_of s); [now elim Hpath | |];
        destruct G as [G1 G2].
      - now rewrite (simulate_step_severe s G1 G2).
      - now rewrite (simulate_step_mild s G1 G2). }
    destruct Hr as [-> Hlate].
    unfold SP.collapse_radius_of. fold tp period a. unfold CMath.M_PI.
    set (q := (tp - period * 0.9) / (period * 0.1)).
    assert (Hq : q * (period * 0.1) = tp - period * 0.9)
      by (unfold q; field; lra).
    assert (Hq' : 0 <= q <= 1) by (split; nra).
    assert (Hsin : 0 <= sin (q * PI)) by (apply sin_ge_0; nra).
    destruct (SIN_bound (q * PI)) as [_ Hle].
    assert (Hprod : 0 <= a * sin (q * PI)) by (apply Rmult_le_pos; lra).
    assert (Hrest : 0 <= a * (1 - sin (q * PI)))
      by (apply Rmult_le_pos; lra).
    split; lra. }
  split; [exact Hexp |]. split; [exact Hcol |].
  destruct (SP.path_of s) eqn:Hpath.
  - destruct (Hexp eq_refl). lra.
  - destruct Hcol as [H1 H2]; [discriminate | lra].
  - destruct Hcol as [H1 H2]; [discriminate | lra].
Qed.

End Envelope.

(** X3.  The radius stays inside an envelope.  With a positive frequency,
    an ambient radius [a] that is not negative and a clock that is not
    negative, a call leaves a radius between [a] and [2 * a] on the
    expansion path and between [0.5 * a] and [a] on a collapse path. *)
Theorem X3_radius_envelope (s : SP.t) :
  0 < SP.m_frequency_hz s ->
  0 <= SP.m_ambient_radius_mm s ->
  0 <= SP.m_time s ->
  let a := SP.m_ambient_radius_mm s in
  let r := SP.get_radius (SP.simulate_step s) in
  (SP.path_of s = SP.Expansion -> a <= r <= 2 * a)
  /\ (SP.path_of s <> SP.Expansion -> 0.5 * a <= r <= a)
  /\ 0.5 * a <= r <= 2 * a.
Proof.
  intros Hf Ha Ht. exact (step_radius_envelope s Hf Ha Ht).
Qed.

Lemma X3_witness :
  0.5 * 0.005
  <= SP.get_radius (SP.simulate_step (Sim.physics Sim.ctor))
  <= 2 * 0.005.
Proof.
  destruct (X3_radius_envelope (Sim.physics Sim.ctor)) as (_ & _ & Hr).
  - cbn. lra.
  - cbn. lra.
  - cbn. lra.
  - exact Hr.
Defined.

(** X4.  The severe-collapse path runs for a negative ambient radius
    only.  When it runs, the radius it divides by is negative, never zero,
    the temperature it leaves is not negative and the light it leaves is
    the emission model at that temperature.  When the ambient radius is
    moreover between -10^300 and -10^-300, where no product overflows or
    underflows, that temperature lies between 16000 and 50000, above the
    floor of the emission model, and the light is above 1: the call
    flashes. *)
Theorem X4_severe_collapse_range (s : SP.t) :
  SP.m_frequency_hz s <> 0 ->
  SP.path_of s = SP.SevereCollapse ->
  let a := SP.m_ambient_radius_mm s in
  let T := SP.get_max_temperature (SP.simulate_step s) in
  a < 0
  /\ SP.get_radius (SP.simulate_step s) < 0
  /\ 0 <= T
  /\ SP.get_emitted_light (SP.simulate_step s) = SP.model_thermal_emission T
  /\ (- 10 ^ 300 <= a <= - / 10 ^ 300 ->
      16000 <= T <= 50000
      /\ 1 < SP.get_emitted_light (SP.simulate_step s)).
Proof.
  intros _ Hpath a T.
  pose proof (path_of_guards s) as G. rewrite Hpath in G.
  destruct G as [Hlate Hdeep].
  assert (HT : T = 50000 * (SP.m_ambient_radius_mm s * 0.5
                            / SP.collapse_radius_of s))
    by (unfold T; now rewrite (simulate_step_severe s Hlate Hdeep)).
  rewrite (simulate_step_severe s Hlate Hdeep).
  unfold SP.get_radius, SP.get_emitted_light.
  cbn [SP.m_current_radius SP.m_light_intensity].
  rewrite <- HT. clearbody T.
  unfold SP.collapse_radius_of in *. fold a in Hdeep, HT |- *.
  set (c := 1 - 0.5 * sin ((SP.t_in_period_of s - SP.period_of s * 0.9)
                           / (SP.period_of s * 0.1) * CMath.M_PI)) in *.
  assert (Hc : 0.5 <= c <= 1.5).
  { unfold c.
    destruct (SIN_bound ((SP.t_in_period_of s - SP.period_of s * 0.9)
                         / (SP.period_of s * 0.1) * CMath.M_PI)). lra. }
  clearbody c. clearbody a.
  assert (Ha : a < 0).
  { destruct (Rlt_dec a 0) as [Hneg | Hpos]; [exact Hneg | exfalso].
    assert (a * 0.5 <= a * c) by (apply Rmult_le_compat_l; lra). lra. }
  assert (Hc' : 0.5 < c) by nra.
  assert (Hr : a * c < 0) by nra.
  set (rho := a * 0.5 / (a * c)) in *.
  assert (Hrho : rho * c = 0.5).
  { apply Rmult_eq_reg_l with a; [| lra].
    replace (a * (rho * c)) with (rho * (a * c)) by ring.
    unfold rho, Rdiv. rewrite Rmult_assoc, Rinv_l; lra. }
  assert (Hrange : 1 / 3 <= rho < 1) by (split; nra).
  assert (HTrange : 50000 / 3 <= T < 50000) by lra.
  split; [exact Ha |]. split; [exact Hr |]. split; [lra |].
  split; [reflexivity |].
  intros _. split; [lra |].
  assert (Hfloor : 1000 <= T) by lra.
  rewrite (emission_from T Hfloor).
  rewrite <- exp_0. apply exp_increasing. lra.
Qed.

Lemma X4_witness :
  16000 <= SP.get_max_temperature inverted_bubble <= 50000
  /\ 1 < SP.get_emitted_light inverted_bubble.
Proof.
  destruct (X4_severe_collapse_range
              (SP.configure 55 1 (-1) "Argon" "Water" SP.ctor))
    as (_ & _ & _ & _ & Hflash).
  - cbn. lra.
  - exact inverted_configuration_severe.
  - apply Hflash. cbn.
    assert (Hbig : 1 <= 10 ^ 300) by (apply pow_R1_Rle; lra).
    assert (Hsmall : / 10 ^ 300 <= 1).
    { rewrite <- Rinv_1. apply Rinv_le_contravar; lra. }
    lra.
Defined.

(** ** Invariants of runs of the facade *)

Section RunInvariants.

(** Temperature and light never go negative, whatever the parameters. *)
Lemma simulate_step_not_negative (s : SP.t) :
  0 <= SP.m_light_intensity s ->
  0 <= SP.m_max_temperature (SP.simulate_step s)
  /\ 0 <= SP.m_light_intensity (SP.simulate_step s).
Proof.
  intros Hl.
  pose proof (path_of_guards s) as G.
  destruct (SP.path_of s) eqn:Hpath.
  - rewrite (simulate_step_expansion s G).
    cbn [SP.m_max_temperature SP.m_light_intensity]. lra.
  - destruct G as [G1 G2]. rewrite (simulate_step_severe s G1 G2).
    cbn [SP.m_max_temperature SP.m_light_intensity].
    assert (Ha : SP.m_ambient_radius_mm s < 0).
    { destruct (Rlt_dec (SP.m_ambient_radius_mm s) 0) as [H | H];
        [exact H | exfalso].
      apply (path_of_never_severe s); [lra | exact Hpath]. }
    assert (Hr : SP.collapse_radius_of s < 0) by lra.
    assert (Hratio : 0 < SP.m_ambient_radius_mm s * 0.5
                         / SP.collapse_radius_of s).
    { unfold Rdiv.
      replace (SP.m_ambient_radius_mm s * 0.5 * / SP.collapse_radius_of s)
        with ((- (SP.m_ambient_radius_mm s * 0.5))
              * / (- SP.collapse_radius_of s)).
      - apply Rmult_lt_0_compat; [lra |].
        apply Rinv_0_lt_compat. lra.
      - rewrite Rinv_opp. ring. }
    split; [lra |].
    unfold SP.model_thermal_emission.
    destruct (Rlt_dec _ _); [lra | left; apply exp_pos].
  - destruct G as [G1 G2]. rewrite (simulate_step_mild s G1 G2).
    cbn [SP.m_max_temperature SP.m_light_intensity]. lra.
Qed.

(** The clock of a run. *)
Lemma run_time (cs : list Sim.call) (s : Sim.t) :
  SP.m_time (Sim.physics (Sim.run cs s))
  = SP.m_time (Sim.physics s) + INR (count_steps cs) * (1 / 60).
Proof.
  revert s. induction cs as [| c cs IH]; intros s.
  - cbn. lra.
  - cbn [Sim.run]. rewrite IH. destruct c as [f p a g l |].
    + cbn [Sim.exec count_steps].
      now rewrite set_parameters_physics, configure_fields.
    + cbn [Sim.exec count_steps].
      rewrite facade_step_physics, simulate_step_time, S_INR. lra.
Qed.



(** Calls that differ in pressure and labels keep the dynamics equal. *)
Lemma exec_same_dynamics (c1 c2 : Sim.call) (s1 s2 : Sim.t) :
  same_drive c1 c2 ->
  same_dynamics s1 s2 ->
  same_dynamics (Sim.exec c1 s1) (Sim.exec c2 s2).
Proof.
  intros Hc (Hf & Ha & Ht & Hr & Htemp & Hl & Hout).
  destruct Hc as [f a p1 g1 l1 p2 g2 l2 |]; cbn [Sim.exec].
  - unfold same_dynamics. rewrite !set_parameters_physics, !configure_fields.
    cbn [SP.m_frequency_hz SP.m_ambient_radius_mm SP.m_time
         SP.m_current_radius SP.m_max_temperature SP.m_light_intensity].
    repeat match goal with |- _ /\ _ => split end;
      reflexivity || assumption.
  - assert (Etp : SP.t_in_period_of (Sim.physics s1)
                  = SP.t_in_period_of (Sim.physics s2))
      by (unfold SP.t_in_period_of, SP.period_of; now rewrite Hf, Ht).
    destruct (same_phase_same_step _ _ Hf Ha Etp)
      as (_ & Hr' & Htemp' & Hl').
    specialize (Hl' (or_introl Hl)).
    destruct (simulate_step_parameters (Sim.physics s1))
      as (Ef1 & _ & Ea1 & _).
    destruct (simulate_step_parameters (Sim.physics s2))
      as (Ef2 & _ & Ea2 & _).
    unfold same_dynamics, Sim.readout, Sim.get_bubble_radius,
      Sim.get_peak_temperature, Sim.get_light_intensity.
    rewrite !facade_step_physics, !simulate_step_time. unfold Sim.step.
    cbn [Sim.current_bubble_radius Sim.current_peak_temperature
         Sim.current_light_intensity].
    unfold SP.get_radius, SP.get_max_temperature, SP.get_emitted_light.
    rewrite Ef1, Ef2, Ea1, Ea2, Ht, Hr', Htemp', Hl'.
    repeat match goal with |- _ /\ _ => split end;
      reflexivity || assumption.
Qed.

Lemma run_same_dynamics (cs1 cs2 : list Sim.call) :
  Forall2 same_drive cs1 cs2 ->
  forall s1 s2 : Sim.t,
    same_dynamics s1 s2 ->
    Sim.trace cs1 s1 = Sim.trace cs2 s2
    /\ same_dynamics (Sim.run cs1 s1) (Sim.run cs2 s2).
Proof.
  induction 1 as [| c1 c2 cs1 cs2 Hc Hcs IH]; intros s1 s2 Hs.
  - now split.
  - cbn [Sim.trace Sim.run].
    pose proof (exec_same_dynamics c1 c2 s1 s2 Hc Hs) as Hs'.
    destruct (IH _ _ Hs') as [Htr Hrun].
    split; [| exact Hrun].
    f_equal; [| exact Htr].
    destruct Hs' as (_ & _ & _ & _ & _ & _ & Hout). exact Hout.
Qed.

(** Temperature and light of a run never go negative. *)
Lemma run_not_negative (cs : list Sim.call) (s : Sim.t) :
  0 <= SP.m_max_temperature (Sim.physics s) ->
  0 <= SP.m_light_intensity (Sim.physics s) ->
  0 <= Sim.current_peak_temperature s ->
  0 <= Sim.current_light_intensity s ->
  let s' := Sim.run cs s in
  0 <= SP.m_max_temperature (Sim.physics s')
  /\ 0 <= SP.m_light_intensity (Sim.physics s')
  /\ 0 <= Sim.current_peak_temperature s'
  /\ 0 <= Sim.current_light_intensity s'.
Proof.
  revert s. induction cs as [| c cs IH]; intros s Hmt Hml Hct Hcl.
  - cbn. auto.
  - cbn [Sim.run]. destruct c as [f p a g l |]; cbn [Sim.exec].
    + apply IH; cbn; lra || assumption.
    + destruct (simulate_step_not_negative (Sim.physics s) Hml) as [H1 H2].
      apply IH; assumption.
Qed.

End RunInvariants.

(** X5.  Temperature and light are never negative.  After any calls on a
    fresh facade, with whatever pressure, radius and labels and any
    frequency but zero, the two cached read-outs and the two values the
    model holds are at least 0. *)
Theorem X5_temperature_and_light_not_negative (cs : list Sim.call) :
  Forall driven_call cs ->
  let s := Sim.run cs Sim.ctor in
  0 <= Sim.get_peak_temperature s
  /\ 0 <= Sim.get_light_intensity s
  /\ 0 <= SP.get_max_temperature (Sim.physics s)
  /\ 0 <= SP.get_emitted_light (Sim.physics s).
Proof.
  intros _ s.
  destruct (run_not_negative cs Sim.ctor) as (H1 & H2 & H3 & H4);
    try (cbn; lra).
  unfold Sim.get_peak_temperature, Sim.get_light_intensity,
    SP.get_max_temperature, SP.get_emitted_light.
  auto.
Qed.

Lemma X5_witness :
  let s := Sim.run [Sim.SetParameters 55 1 (-1) "Argon" "Water"; Sim.Step]
                   Sim.ctor in
  0 <= Sim.get_peak_temperature s /\ 0 <= Sim.get_light_intensity s.
Proof.
  destruct (X5_temperature_and_light_not_negative
              [Sim.SetParameters 55 1 (-1) "Argon" "Water"; Sim.Step])
    as (Ht & Hl & _).
  - repeat constructor. cbn. lra.
  - exact (conj Ht Hl).
Defined.

(** X6.  The pressure is stored and read by nothing.  Two runs from a
    fresh facade whose calls differ at most in the pressure (and in the
    labels) show the same read-outs after every call, and their models
    answer the same. *)
Theorem X6_pressure_does_not_matter (cs1 cs2 : list Sim.call) :
  Forall2 same_drive cs1 cs2 ->
  let s1 := Sim.run cs1 Sim.ctor in
  let s2 := Sim.run cs2 Sim.ctor in
  Sim.trace cs1 Sim.ctor = Sim.trace cs2 Sim.ctor
  /\ Sim.readout s1 = Sim.readout s2
  /\ live_readout (Sim.physics s1) = live_readout (Sim.physics s2)
  /\ (forall (f p a : R) (g l : string) (s : Sim.t),
        SP.m_pressure_atm (Sim.physics (Sim.set_parameters f p a g l s))
        = p).
Proof.
  intros Hcs s1 s2.
  assert (Hstart : same_dynamics Sim.ctor Sim.ctor)
    by (unfold same_dynamics; repeat split).
  destruct (run_same_dynamics cs1 cs2 Hcs Sim.ctor Sim.ctor Hstart)
    as [Htr Hdyn].
  fold s1 s2 in Hdyn.
  destruct Hdyn as (_ & _ & _ & Hr & Htemp & Hl & Hout).
  split; [exact Htr |]. split; [exact Hout |]. split.
  - unfold live_readout, SP.get_radius, SP.get_max_temperature,
      SP.get_emitted_light. now rewrite Hr, Htemp, Hl.
  - reflexivity.
Qed.

Lemma X6_witness :
  Sim.readout
    (Sim.run [Sim.SetParameters 26500 1.2 0.004 "Argon" "Water"; Sim.Step]
             Sim.ctor)
  = Sim.readout
      (Sim.run [Sim.SetParameters 26500 80 0.004 "Argon" "Water"; Sim.Step]
               Sim.ctor).
Proof.
  destruct (X6_pressure_does_not_matter
              [Sim.SetParameters 26500 1.2 0.004 "Argon" "Water"; Sim.Step]
              [Sim.SetParameters 26500 80 0.004 "Argon" "Water"; Sim.Step])
    as (_ & Hout & _).
  - repeat constructor.
  - exact Hout.
Defined.

(** X7.  The clock counts the [step] calls and nothing else.  After any
    calls on a fresh facade the elapsed time is the one of a fresh facade
    that was stepped as many times as there are [step] calls among them:
    the reconfigurations in between leave no trace in it. *)
Theorem X7_clock_counts_steps (cs : list Sim.call) :
  SP.m_time (Sim.physics (Sim.run cs Sim.ctor))
  = SP.m_time (Sim.physics (Sim.steps (count_steps cs) Sim.ctor)).
Proof.
  rewrite run_time, facade_steps_physics, steps_time. reflexivity.
Qed.



(** X9.  The cache is live or zeroed.  After any calls on a fresh facade,
    valid or not, the cached radius is the radius the model holds, and the
    cached temperature and the cached light are each either what the model
    holds or 0; after a [step] all three are what the model holds. *)
Theorem X9_cache_is_live_or_zeroed (cs : list Sim.call) :
  let s := Sim.run cs Sim.ctor in
  Sim.get_bubble_radius s = SP.get_radius (Sim.physics s)
  /\ (Sim.get_peak_temperature s = SP.get_max_temperature (Sim.physics s)
      \/ Sim.get_peak_temperature s = 0)
  /\ (Sim.get_light_intensity s = SP.get_emitted_light (Sim.physics s)
      \/ Sim.get_light_intensity s = 0)
  /\ Sim.readout (Sim.step s) = live_readout (Sim.physics (Sim.step s)).
Proof.
  intros s. split; [| split; [| split]]; try reflexivity; subst s.
  - generalize Sim.ctor (eq_refl : Sim.get_bubble_radius Sim.ctor
                                   = SP.get_radius (Sim.physics Sim.ctor)).
    induction cs as [| c cs IH]; intros s0 H0; [exact H0 |].
    cbn [Sim.run]. apply IH. destruct c; reflexivity.
  - generalize Sim.ctor
      (or_intror eq_refl
       : Sim.get_peak_temperature Sim.ctor
         = SP.get_max_temperature (Sim.physics Sim.ctor)
         \/ Sim.get_peak_temperature Sim.ctor = 0).
    induction cs as [| c cs IH]; intros s0 H0; [exact H0 |].
    cbn [Sim.run]. apply IH. destruct c; [right | left]; reflexivity.
  - generalize Sim.ctor
      (or_intror eq_refl
       : Sim.get_light_intensity Sim.ctor
         = SP.get_emitted_light (Sim.physics Sim.ctor)
         \/ Sim.get_light_intensity Sim.ctor = 0).
    induction cs as [| c cs IH]; intros s0 H0; [exact H0 |].
    cbn [Sim.run]. apply IH. destruct c; [right | left]; reflexivity.
Qed.

(** X10.  The emission model never decreases and jumps at its floor: it
    is 0 below 1000, exactly 1 at 1000 and at least 1 from there on, so it
    takes no value strictly between 0 and 1. *)
Theorem X10_emission_is_monotone_with_a_jump (T1 T2 : R) :
  T1 <= T2 ->
  SP.model_thermal_emission T1 <= SP.model_thermal_emission T2
  /\ (T1 < 1000 -> SP.model_thermal_emission T1 = 0)
  /\ (1000 <= T1 -> 1 <= SP.model_thermal_emission T1)
  /\ SP.model_thermal_emission 1000 = 1.
Proof.
  intros Hle.
  assert (Hone : forall T : R, 1000 <= T -> 1 <= SP.model_thermal_emission T).
  { intros T HT. rewrite (emission_from T HT).
    destruct (Req_dec T 1000) as [-> | Hne].
    - replace ((1000 - 1000) / 10000) with 0 by lra. rewrite exp_0. lra.
    - left. rewrite <- exp_0. apply exp_increasing. lra. }
  split; [| split; [| split]].
  - destruct (Rlt_dec T1 1000) as [Hlow1 | Hhigh1].
    + rewrite (emission_below T1 Hlow1).
      destruct (Rlt_dec T2 1000) as [Hlow2 | Hhigh2].
      * rewrite (emission_below T2 Hlow2). lra.
      * pose proof (Hone T2). lra.
    + rewrite (emission_from T1), (emission_from T2) by lra.
      destruct (Req_dec T1 T2) as [-> | Hne]; [lra |].
      left. apply exp_increasing. lra.
  - apply emission_below.
  - apply Hone.
  - rewrite emission_from by lra.
    replace ((1000 - 1000) / 10000) with 0 by lra. apply exp_0.
Qed.

Lemma X10_witness :
  SP.model_thermal_emission 999 = 0
  /\ SP.model_thermal_emission 999 <= SP.model_thermal_emission 1000
  /\ SP.model_thermal_emission 1000 = 1.
Proof.
  destruct (X10_emission_is_monotone_with_a_jump 999 1000)
    as (Hle & Hdark & _ & Hone).
  - lra.
  - split; [apply Hdark; lra |]. split; [exact Hle | exact Hone].
Defined.
